(** * HerePy: the routing client [herepy/routing_api.py]

    A shallow embedding of [RoutingApi]: the client object with its
    credentials, base URL and timeout, the six route operations that
    assemble a parameter dictionary, and the private dispatch routine
    [__get] that performs the request and turns the decoded JSON
    envelope into a [RoutingResponse] or a [HEREError].

    Python dictionaries are finite maps ([gmap string _]), Python
    strings are [string], Python objects that are only passed through
    are values of [pyval]. *)

From Stdlib Require Import ZArith String Ascii List SpecFloat.
From stdpp Require Import gmap strings list fin_maps.

Local Open Scope string_scope.

(** ** Python values *)

(** The values this module receives and hands on: what [json.loads]
    returns, and what a caller may store as a credential or pass as a
    timeout.  A float is an IEEE 754 binary64 number in the canonical
    mantissa and exponent form of [spec_float]; no arithmetic is ever
    done on it here. *)
#[warnings="-register-all"]
Inductive pyval : Type :=
| PyNone
| PyBool (b : bool)
| PyInt (n : Z)
| PyFloat (f : spec_float)
| PyStr (s : string)
| PyList (xs : list pyval)
| PyDict (d : gmap string pyval).

(** [bool(v)], as an [if v:] tests it. *)
Definition truthy (v : pyval) : bool :=
  match v with
  | PyNone => false
  | PyBool b => b
  | PyInt n => negb (n =? 0)%Z
  | PyFloat (S754_zero _) => false
  | PyFloat _ => true
  | PyStr s => negb (String.eqb s "")
  | PyList xs => match xs with [] => false | _ => true end
  | PyDict d => negb (bool_decide (d = ∅))
  end.

(** [v != None]. *)
Definition ne_None (v : pyval) : bool :=
  match v with
  | PyNone => false
  | _ => true
  end.

(** The binary64 number 1.0. *)
Definition float_one : spec_float := S754_finite false 4503599627370496 (-52).

(** [v == True]: [bool] is a subclass of [int], so [1] and [1.0] are
    equal to [True] as well. *)
Definition eq_True (v : pyval) : bool :=
  match v with
  | PyBool b => b
  | PyInt n => (n =? 1)%Z
  | PyFloat f => SFeqb f float_one
  | _ => false
  end.

(** ** Strings *)

(** [s[:-1]]: the slice from the start up to, not including, the last
    character; the empty string stays empty. *)
Definition drop_last (s : string) : string :=
  substring 0 (String.length s - 1) s.

(** [str.format(template, *args)] for templates whose replacement
    fields are the one-digit positional fields [{0}] .. [{9}], the only
    ones this module writes.  The arguments are given already printed
    (a field [{i}] without a format spec prints its argument with
    [format(x, '')]).  An index past the arguments raises [IndexError]
    in Python; both templates of this module are applied to two
    arguments. *)
Fixpoint str_format (template : string) (args : list string) : string :=
  match template with
  | EmptyString => EmptyString
  | String c rest =>
      match rest with
      | String d (String e rest') =>
          match Ascii.eqb c "{", Ascii.is_nat d, Ascii.eqb e "}" with
          | true, Some i, true => default "" (args !! i) +:+ str_format rest' args
          | _, _, _ => String c (str_format rest args)
          end
      | _ => String c (str_format rest args)
      end
  end.

(** A string occurs inside another one. *)
Definition substring_of (needle hay : string) : Prop :=
  ∃ before after, hay = before +:+ needle +:+ after.

(** No character of the string is white space. *)
Fixpoint no_space (s : string) : bool :=
  match s with
  | EmptyString => true
  | String c rest => negb (Ascii.is_space c) && no_space rest
  end.

(** ** Route modes *)

(** Modelled from the spec: [herepy/here_enum.py] is absent.  The
    enumeration [RouteMode] is "a closed symbol set" with "no behavior
    beyond stringification"; the interface below has the string form
    [m.__str__()] and the five members that [routing_api.py] names in
    its default arguments. *)
Class RouteModeEnum (RouteMode : Type) := {
  RouteMode_str : RouteMode → string;
  car : RouteMode;
  fastest : RouteMode;
  pedestrian : RouteMode;
  publicTransport : RouteMode;
  truck : RouteMode
}.

Section ModeValues.
Context `{RouteModeEnum RouteMode}.

(** [RoutingApi.__prepare_mode_values]: every mode followed by a
    semicolon, then the last character cut off. *)
Definition __prepare_mode_values (modes : list RouteMode) : string :=
  let mode_values :=
    fold_left (λ mode_values m, mode_values +:+ RouteMode_str m +:+ ";") modes "" in
  drop_last mode_values.
End ModeValues.

(** ** The client object *)

(** The attributes of a [RoutingApi] instance. *)
Record RoutingApi := {
  _app_id : pyval;
  _app_code : pyval;
  _baseUrl : string;
  _timeout : pyval
}.

(** [RoutingApi.SetCredentials]: two attribute assignments. *)
Definition SetCredentials (self : RoutingApi) (app_id app_code : pyval) : RoutingApi :=
  {| _app_id := app_id;
     _app_code := app_code;
     _baseUrl := _baseUrl self;
     _timeout := _timeout self |}.

(** [RoutingApi.__init__]: the three keyword arguments default to
    [None]; the credentials are stored as [SetCredentials] stores them,
    the base URL is fixed, and a timeout that is not truthy is replaced
    by 20. *)
Definition __init__ (app_id app_code timeout : option pyval) : RoutingApi :=
  let app_id := default PyNone app_id in
  let app_code := default PyNone app_code in
  let timeout := default PyNone timeout in
  {| _app_id := app_id;
     _app_code := app_code;
     _baseUrl := "https://route.cit.api.here.com/routing/7.2/calculateroute.json";
     _timeout := if truthy timeout then timeout else PyInt 20 |}.

(** ** Parameter dictionaries *)

(** A dictionary display [{k1: v1, ..., kn: vn}]: the items are stored
    from left to right, a later item replacing an earlier one with the
    same key. *)
Definition dict_display (items : list (string * pyval)) : gmap string pyval :=
  fold_left (λ d kv, <[kv.1 := kv.2]> d) items ∅.

(** The items of a dictionary with a given key. *)
Definition entries (k : string) (d : gmap string pyval) : list (string * pyval) :=
  filter (λ kv, kv.1 = k) (map_to_list d).

Section Operations.
(** A coordinate is whatever the caller puts into a waypoint;
    [format_coord x] is [format(x, '')], the text a [{i}] field
    prints for it. *)
Context {coord : Type} (format_coord : coord → string).
Context `{RouteModeEnum RouteMode}.

(** A waypoint is "an array including latitude and longitude in
    order"; only its items 0 and 1 are read. *)
Definition waypoint : Type := coord * coord.

(** The dictionary [data] that [CarRoute] assembles. *)
Definition CarRoute_data (self : RoutingApi) (waypoint_a waypoint_b : waypoint)
    (modes : option (list RouteMode)) : gmap string pyval :=
  let modes := default [car; fastest] modes in
  dict_display
    [("waypoint0",
        PyStr (str_format "{0},{1}" [format_coord waypoint_a.1; format_coord waypoint_a.2]));
     ("waypoint1",
        PyStr (str_format "{0},{1}" [format_coord waypoint_b.1; format_coord waypoint_b.2]));
     ("mode", PyStr (__prepare_mode_values modes));
     ("app_id", _app_id self);
     ("app_code", _app_code self);
     ("departure", PyStr "now")].

(** The dictionary [data] that [PedastrianRoute] assembles. *)
Definition PedastrianRoute_data (self : RoutingApi) (waypoint_a waypoint_b : waypoint)
    (modes : option (list RouteMode)) : gmap string pyval :=
  let modes := default [pedestrian; fastest] modes in
  dict_display
    [("waypoint0",
        PyStr (str_format "{0},{1}" [format_coord waypoint_a.1; format_coord waypoint_a.2]));
     ("waypoint1",
        PyStr (str_format "{0},{1}" [format_coord waypoint_b.1; format_coord waypoint_b.2]));
     ("mode", PyStr (__prepare_mode_values modes));
     ("app_id", _app_id self);
     ("app_code", _app_code self)].

(** The dictionary [data] that [IntermediateRoute] assembles. *)
Definition IntermediateRoute_data (self : RoutingApi)
    (waypoint_a waypoint_b waypoint_c : waypoint)
    (modes : option (list RouteMode)) : gmap string pyval :=
  let modes := default [car; fastest] modes in
  dict_display
    [("waypoint0",
        PyStr (str_format "{0},{1}" [format_coord waypoint_a.1; format_coord waypoint_a.2]));
     ("waypoint1",
        PyStr (str_format "{0},{1}" [format_coord waypoint_b.1; format_coord waypoint_b.2]));
     ("waypoint2",
        PyStr (str_format "{0},{1}" [format_coord waypoint_c.1; format_coord waypoint_c.2]));
     ("mode", PyStr (__prepare_mode_values modes));
     ("app_id", _app_id self);
     ("app_code", _app_code self)].

(** The dictionary [data] that [PublicTransport] assembles. *)
Definition PublicTransport_data (self : RoutingApi) (waypoint_a waypoint_b : waypoint)
    (combine_change : pyval) (modes : option (list RouteMode)) : gmap string pyval :=
  let modes := default [publicTransport; fastest] modes in
  dict_display
    [("waypoint0",
        PyStr (str_format "{0},{1}" [format_coord waypoint_a.1; format_coord waypoint_a.2]));
     ("waypoint1",
        PyStr (str_format "{0},{1}" [format_coord waypoint_b.1; format_coord waypoint_b.2]));
     ("mode", PyStr (__prepare_mode_values modes));
     ("combine_change", PyStr (if eq_True combine_change then "true" else "false"));
     ("app_id", _app_id self);
     ("app_code", _app_code self)].

(** The dictionary [data] that [LocationNearMotorway] assembles. *)
Definition LocationNearMotorway_data (self : RoutingApi) (waypoint_a waypoint_b : waypoint)
    (modes : option (list RouteMode)) : gmap string pyval :=
  let modes := default [car; fastest] modes in
  dict_display
    [("waypoint0",
        PyStr (str_format "{0},{1}" [format_coord waypoint_a.1; format_coord waypoint_a.2]));
     ("waypoint1",
        PyStr (str_format "street!!{0},{1}" [format_coord waypoint_b.1; format_coord waypoint_b.2]));
     ("mode", PyStr (__prepare_mode_values modes));
     ("app_id", _app_id self);
     ("app_code", _app_code self)].

(** The dictionary [data] that [TruckRoute] assembles. *)
Definition TruckRoute_data (self : RoutingApi) (waypoint_a waypoint_b : waypoint)
    (modes : option (list RouteMode)) : gmap string pyval :=
  let modes := default [truck; fastest] modes in
  dict_display
    [("waypoint0",
        PyStr (str_format "{0},{1}" [format_coord waypoint_a.1; format_coord waypoint_a.2]));
     ("waypoint1",
        PyStr (str_format "{0},{1}" [format_coord waypoint_b.1; format_coord waypoint_b.2]));
     ("mode", PyStr (__prepare_mode_values modes));
     ("app_id", _app_id self);
     ("app_code", _app_code self)].

(** A call of one of the six public route operations, with its
    arguments. *)
Inductive route_call : Type :=
| CallCarRoute (waypoint_a waypoint_b : waypoint) (modes : option (list RouteMode))
| CallPedastrianRoute (waypoint_a waypoint_b : waypoint) (modes : option (list RouteMode))
| CallIntermediateRoute (waypoint_a waypoint_b waypoint_c : waypoint)
    (modes : option (list RouteMode))
| CallPublicTransport (waypoint_a waypoint_b : waypoint) (combine_change : pyval)
    (modes : option (list RouteMode))
| CallLocationNearMotorway (waypoint_a waypoint_b : waypoint)
    (modes : option (list RouteMode))
| CallTruckRoute (waypoint_a waypoint_b : waypoint) (modes : option (list RouteMode)).

(** The first two waypoints of a call. *)
Definition call_waypoint_a (c : route_call) : waypoint :=
  match c with
  | CallCarRoute a _ _ | CallPedastrianRoute a _ _ | CallIntermediateRoute a _ _ _
  | CallPublicTransport a _ _ _ | CallLocationNearMotorway a _ _ | CallTruckRoute a _ _ => a
  end.

Definition call_waypoint_b (c : route_call) : waypoint :=
  match c with
  | CallCarRoute _ b _ | CallPedastrianRoute _ b _ | CallIntermediateRoute _ b _ _
  | CallPublicTransport _ b _ _ | CallLocationNearMotorway _ b _ | CallTruckRoute _ b _ => b
  end.

(** The text "<lat>,<lon>" of a waypoint: the printed latitude, a
    comma, the printed longitude. *)
Definition lat_lon (w : waypoint) : string :=
  format_coord w.1 +:+ "," +:+ format_coord w.2.

(** What an operation writes in front of the second waypoint. *)
Definition waypoint1_prefix (c : route_call) : string :=
  match c with
  | CallLocationNearMotorway _ _ _ => "street!!"
  | _ => ""
  end.

(** The name of the called method, as [f_code.co_name] has it. *)
Definition call_name (c : route_call) : string :=
  match c with
  | CallCarRoute _ _ _ => "CarRoute"
  | CallPedastrianRoute _ _ _ => "PedastrianRoute"
  | CallIntermediateRoute _ _ _ _ => "IntermediateRoute"
  | CallPublicTransport _ _ _ _ => "PublicTransport"
  | CallLocationNearMotorway _ _ _ => "LocationNearMotorway"
  | CallTruckRoute _ _ _ => "TruckRoute"
  end.

(** The dictionary that a call assembles. *)
Definition call_data (self : RoutingApi) (c : route_call) : gmap string pyval :=
  match c with
  | CallCarRoute a b modes => CarRoute_data self a b modes
  | CallPedastrianRoute a b modes => PedastrianRoute_data self a b modes
  | CallIntermediateRoute a b c modes => IntermediateRoute_data self a b c modes
  | CallPublicTransport a b combine_change modes =>
      PublicTransport_data self a b combine_change modes
  | CallLocationNearMotorway a b modes => LocationNearMotorway_data self a b modes
  | CallTruckRoute a b modes => TruckRoute_data self a b modes
  end.
End Operations.


(** ** The URL builder *)

(** The characters that percent-encoding leaves as they are: letters,
    digits, and [-], [.], [_], [~]. *)
Definition unreserved (c : ascii) : bool :=
  let n := nat_of_ascii c in
  (((65 <=? n) && (n <=? 90)) || ((97 <=? n) && (n <=? 122)) || ((48 <=? n) && (n <=? 57))
   || (n =? 45) || (n =? 46) || (n =? 95) || (n =? 126))%nat.

Definition hex_digit (n : nat) : ascii :=
  ascii_of_nat (if (n <? 10)%nat then 48 + n else 55 + n).

Definition percent_encode_char (c : ascii) : string :=
  if unreserved c then String c ""
  else String "%" (String (hex_digit (nat_of_ascii c / 16))
                     (String (hex_digit (nat_of_ascii c mod 16)) "")).

Fixpoint percent_encode (s : string) : string :=
  match s with
  | EmptyString => EmptyString
  | String c rest => percent_encode_char c +:+ percent_encode rest
  end.

Section UrlBuilder.
(** The text of a parameter value, before it is encoded. *)
Variable py_str : pyval → string.

Definition encode_parameter (kv : string * pyval) : string :=
  percent_encode kv.1 +:+ "=" +:+ percent_encode (py_str kv.2).

(** Modelled from the spec: [herepy/utils.py] is absent.
    [Utils.BuildUrl]: "given a base URL string and a mapping of extra
    query parameters, produce a single URL with all parameters
    percent-encoded and appended in a stable order".  The parameters
    follow the base URL after a question mark, as [name=value] joined
    by [&], in the order of the keys. *)
Definition BuildUrl (url : string) (extra_params : gmap string pyval) : string :=
  match map_to_list extra_params with
  | [] => url
  | items => url +:+ "?" +:+ String.concat "&" (encode_parameter <$> items)
  end.
End UrlBuilder.

(** ** Dispatch *)

(** Modelled from the spec: [herepy/error.py] is absent.  [HEREError]
    is a "typed wrapper carrying a message". *)
Record HEREError := mkHEREError { message : pyval }.

(** The exceptions that leave [__get]: a transport failure of
    [requests.get], a body that is not UTF-8 encoded JSON, and an
    attribute that the decoded document does not have. *)
Inductive exception : Type :=
| RequestException
| ValueError
| AttributeError.

(** What a call of a route operation comes to: it returns a
    [RoutingResponse], it returns a [HEREError], or an exception
    leaves it. *)
Inductive outcome (RoutingResponse : Type) : Type :=
| ReturnResponse (r : RoutingResponse)
| ReturnError (e : HEREError)
| Raise (x : exception).
Arguments ReturnResponse {RoutingResponse} r.
Arguments ReturnError {RoutingResponse} e.
Arguments Raise {RoutingResponse} x.

(** A call yields a response model; a call yields an API error. *)
Definition yields_response {RoutingResponse : Type} (o : outcome RoutingResponse) : Prop :=
  ∃ r, o = ReturnResponse r.

Definition yields_error {RoutingResponse : Type} (o : outcome RoutingResponse) : Prop :=
  ∃ e, o = ReturnError e.

(** Modelled from the spec: [herepy/models.py] is absent, and the HTTP
    transport and the JSON decoder are external ("GET(url, timeout) ->
    body", "parse(body) -> document").
    - [py_str v] is the text of a value in a URL;
    - [requests_get url timeout] is the content of the reply, [None]
      when [requests.get] raises;
    - [json_loads content] is [json.loads(content.decode('utf8'))],
      [None] when decoding or parsing raises;
    - [new_from_jsondict d] is [RoutingResponse.new_from_jsondict(d)],
      a response model "constructed from a decoded JSON object". *)
Class Collaborators (RoutingResponse : Type) := {
  py_str : pyval → string;
  requests_get : string → pyval → option string;
  json_loads : string → option pyval;
  new_from_jsondict : gmap string pyval → RoutingResponse
}.

Section Dispatch.
Context {coord : Type} (format_coord : coord → string).
Context `{RouteModeEnum RouteMode}.
Context `{Collaborators RoutingResponse}.

(** [RoutingApi.__get].  [co_name] is [sys._getframe(1).f_code.co_name],
    the name of the method that called [__get]. *)
Definition __get (self : RoutingApi) (co_name : string) (data : gmap string pyval)
    : outcome RoutingResponse :=
  let url := BuildUrl py_str (_baseUrl self) data in
  match requests_get url (_timeout self) with
  | None => Raise RequestException
  | Some content =>
      match json_loads content with
      | None => Raise ValueError
      | Some (PyDict jsonData) =>
          if ne_None (default PyNone (jsonData !! "response"))
          then ReturnResponse (new_from_jsondict jsonData)
          else ReturnError
                 (mkHEREError
                    (default (PyStr ("Error occured on " +:+ co_name))
                       (jsonData !! "details")))
      | Some _ => Raise AttributeError
      end
  end.

Definition CarRoute (self : RoutingApi) (waypoint_a waypoint_b : waypoint)
    (modes : option (list RouteMode)) : outcome RoutingResponse :=
  __get self "CarRoute" (CarRoute_data format_coord self waypoint_a waypoint_b modes).

Definition PedastrianRoute (self : RoutingApi) (waypoint_a waypoint_b : waypoint)
    (modes : option (list RouteMode)) : outcome RoutingResponse :=
  __get self "PedastrianRoute"
    (PedastrianRoute_data format_coord self waypoint_a waypoint_b modes).

Definition IntermediateRoute (self : RoutingApi) (waypoint_a waypoint_b waypoint_c : waypoint)
    (modes : option (list RouteMode)) : outcome RoutingResponse :=
  __get self "IntermediateRoute"
    (IntermediateRoute_data format_coord self waypoint_a waypoint_b waypoint_c modes).

Definition PublicTransport (self : RoutingApi) (waypoint_a waypoint_b : waypoint)
    (combine_change : pyval) (modes : option (list RouteMode)) : outcome RoutingResponse :=
  __get self "PublicTransport"
    (PublicTransport_data format_coord self waypoint_a waypoint_b combine_change modes).

Definition LocationNearMotorway (self : RoutingApi) (waypoint_a waypoint_b : waypoint)
    (modes : option (list RouteMode)) : outcome RoutingResponse :=
  __get self "LocationNearMotorway"
    (LocationNearMotorway_data format_coord self waypoint_a waypoint_b modes).

Definition TruckRoute (self : RoutingApi) (waypoint_a waypoint_b : waypoint)
    (modes : option (list RouteMode)) : outcome RoutingResponse :=
  __get self "TruckRoute" (TruckRoute_data format_coord self waypoint_a waypoint_b modes).

(** Performing a call: the method it names, on its arguments. *)
Definition perform (self : RoutingApi) (c : route_call) : outcome RoutingResponse :=
  match c with
  | CallCarRoute a b modes => CarRoute self a b modes
  | CallPedastrianRoute a b modes => PedastrianRoute self a b modes
  | CallIntermediateRoute a b c modes => IntermediateRoute self a b c modes
  | CallPublicTransport a b combine_change modes =>
      PublicTransport self a b combine_change modes
  | CallLocationNearMotorway a b modes => LocationNearMotorway self a b modes
  | CallTruckRoute a b modes => TruckRoute self a b modes
  end.

(** The URL that a call requests. *)
Definition request_url (self : RoutingApi) (c : route_call) : string :=
  BuildUrl py_str (_baseUrl self) (call_data format_coord self c).
End Dispatch.


(** ** Fixtures *)

(** Concrete collaborators and inputs, on which the definitions above
    run. *)
Module Fixture.

(** Modelled from the spec: the members of [RouteMode] that
    [routing_api.py] names; the spec gives the string forms of [car]
    and [fastest] ("mode=car;fastest"), the other three are written
    like their names. *)
Inductive mode : Type := Car | Fastest | Pedestrian | PublicTransport | Truck.

Definition mode_str (m : mode) : string :=
  match m with
  | Car => "car"
  | Fastest => "fastest"
  | Pedestrian => "pedestrian"
  | PublicTransport => "publicTransport"
  | Truck => "truck"
  end.

#[global] Instance mode_enum : RouteModeEnum mode := {|
  RouteMode_str := mode_str;
  car := Car;
  fastest := Fastest;
  pedestrian := Pedestrian;
  publicTransport := PublicTransport;
  truck := Truck
|}.

(** Coordinates given as text: a [{i}] field prints a [str] as it
    is. *)
Definition text (s : string) : string := s.

(** The text of a [str] value is the value; no other value is printed
    by the fixtures. *)
Definition str_text (v : pyval) : string :=
  match v with
  | PyStr s => s
  | _ => ""
  end.

(** A transport on which every request times out. *)
Definition offline : Collaborators (gmap string pyval) := {|
  py_str := str_text;
  requests_get := λ _ _, None;
  json_loads := λ _, None;
  new_from_jsondict := λ d, d
|}.

(** A stub transport whose every reply decodes to the document
    [doc]; the response model is the decoded dictionary. *)
Definition canned (doc : pyval) : Collaborators (gmap string pyval) := {|
  py_str := str_text;
  requests_get := λ _ _, Some "canned";
  json_loads := λ _, Some doc;
  new_from_jsondict := λ d, d
|}.

(** A stub transport whose replies are not JSON. *)
Definition garbled : Collaborators (gmap string pyval) := {|
  py_str := str_text;
  requests_get := λ _ _, Some "<html>";
  json_loads := λ _, None;
  new_from_jsondict := λ d, d
|}.

(** The client of the test suite. *)
Definition api : RoutingApi :=
  __init__ (Some (PyStr "app_id")) (Some (PyStr "app_code")) None.

(** The waypoints of the driving-route scenario. *)
Definition berlin_a : string * string := ("52.5", "13.4").
Definition berlin_b : string * string := ("52.4", "13.5").

(** A success envelope, an envelope whose [response] is [null], an
    error envelope and a document that is not an object. *)
Definition success_doc : gmap string pyval :=
  {[ "response" := PyDict {[ "route" := PyList [] ]} ]}.
Definition null_response_doc : gmap string pyval :=
  {[ "response" := PyNone ]}.
Definition error_doc : gmap string pyval :=
  {[ "details" := PyStr "Invalid credentials" ]}.
Definition array_doc : pyval := PyList [].

End Fixture.


(** ** Reading the parameters back *)

(** A character occurs in a string. *)
Fixpoint has_char (c : ascii) (s : string) : bool :=
  match s with
  | EmptyString => false
  | String c' rest => Ascii.eqb c' c || has_char c rest
  end.

(** [s.split(sep)] for a separator of one character: the pieces
    between the separators, one piece more than there are separators. *)
Fixpoint split_on (sep : ascii) (s : string) : list string :=
  match s with
  | EmptyString => [EmptyString]
  | String c rest =>
      if Ascii.eqb c sep then EmptyString :: split_on sep rest
      else match split_on sep rest with
           | [] => [String c EmptyString]
           | piece :: pieces => String c piece :: pieces
           end
  end.

(** The keys that every route operation writes, and the keys that
    single operations add. *)
Definition common_keys : gset string :=
  {[ "waypoint0"; "waypoint1"; "mode"; "app_id"; "app_code" ]}.

Section Calls.
Context {coord : Type} `{RouteModeEnum RouteMode}.

Definition extra_keys (c : @route_call coord RouteMode) : gset string :=
  match c with
  | CallCarRoute _ _ _ => {[ "departure" ]}
  | CallIntermediateRoute _ _ _ _ => {[ "waypoint2" ]}
  | CallPublicTransport _ _ _ _ => {[ "combine_change" ]}
  | _ => ∅
  end.

(** The [modes] argument of a call, and the default that the called
    method declares for it. *)
Definition call_modes (c : @route_call coord RouteMode) : option (list RouteMode) :=
  match c with
  | CallCarRoute _ _ modes | CallPedastrianRoute _ _ modes
  | CallIntermediateRoute _ _ _ modes | CallPublicTransport _ _ _ modes
  | CallLocationNearMotorway _ _ modes | CallTruckRoute _ _ modes => modes
  end.

Definition default_modes (c : @route_call coord RouteMode) : list RouteMode :=
  match c with
  | CallCarRoute _ _ _ => [car; fastest]
  | CallPedastrianRoute _ _ _ => [pedestrian; fastest]
  | CallIntermediateRoute _ _ _ _ => [car; fastest]
  | CallPublicTransport _ _ _ _ => [publicTransport; fastest]
  | CallLocationNearMotorway _ _ _ => [car; fastest]
  | CallTruckRoute _ _ _ => [truck; fastest]
  end.
End Calls.


(** ** Transports that look at the URL *)

(** A string occurs inside another one, decided from left to right. *)
Fixpoint contains (needle hay : string) : bool :=
  String.prefix needle hay
  || match hay with
     | EmptyString => false
     | String _ rest => contains needle rest
     end.

(** A transport that times out on every URL that carries the
    application id of the test suite, and replies to every other
    URL. *)
Definition keyless_only : Collaborators (gmap string pyval) := {|
  py_str := Fixture.str_text;
  requests_get := λ url _, if contains "app_id=app_id" url then None else Some "canned";
  json_loads := λ _, None;
  new_from_jsondict := λ d, d
|}.

(** * Properties *)

(** ** Strings *)

Lemma append_cons (c : ascii) (s t : string) : String c s +:+ t = String c (s +:+ t).
Proof. reflexivity. Qed.

Lemma append_empty_l (s : string) : "" +:+ s = s.
Proof. reflexivity. Qed.

Lemma append_empty_r (s : string) : s +:+ "" = s.
Proof. induction s as [|c s IH]; [done | by rewrite append_cons, IH]. Qed.

Lemma append_assoc (s t u : string) : (s +:+ t) +:+ u = s +:+ t +:+ u.
Proof. induction s as [|c s IH]; [done | by rewrite !append_cons, IH]. Qed.

Lemma length_append (s t : string) :
  String.length (s +:+ t) = String.length s + String.length t.
Proof. induction s as [|c s IH]; [done | rewrite append_cons; simpl; by rewrite IH]. Qed.

Lemma substring_prefix (s t : string) : substring 0 (String.length s) (s +:+ t) = s.
Proof.
  induction s as [|c s IH].
  - rewrite append_empty_l. by destruct t.
  - rewrite append_cons. simpl. by rewrite IH.
Qed.

(** Cutting the last character off a string that ends with one more
    character gives the string back. *)
Lemma drop_last_snoc (s : string) (c : ascii) : drop_last (s +:+ String c "") = s.
Proof.
  unfold drop_last. rewrite length_append. simpl.
  replace (String.length s + 1 - 1) with (String.length s) by lia.
  apply substring_prefix.
Qed.

Lemma str_format_pair (x y : string) : str_format "{0},{1}" [x; y] = x +:+ "," +:+ y.
Proof. simpl. by rewrite append_empty_r. Qed.

Lemma str_format_street_pair (x y : string) :
  str_format "street!!{0},{1}" [x; y] = "street!!" +:+ x +:+ "," +:+ y.
Proof. simpl. by rewrite append_empty_r. Qed.

Lemma substring_of_refl (s : string) : substring_of s s.
Proof. exists "", "". simpl. by rewrite append_empty_r. Qed.

Lemma substring_of_app_l (n s t : string) : substring_of n s → substring_of n (s +:+ t).
Proof.
  intros (b & a & ->). exists b, (a +:+ t). by rewrite !append_assoc.
Qed.

Lemma substring_of_app_r (n s t : string) : substring_of n t → substring_of n (s +:+ t).
Proof.
  intros (b & a & ->). exists (s +:+ b), a. by rewrite !append_assoc.
Qed.

(** ** The mode parameter *)

Section ModeValuesFacts.
Context `{RouteModeEnum RouteMode}.

(** The loop of [__prepare_mode_values] appends to what it has. *)
Lemma fold_mode_values (modes : list RouteMode) (acc : string) :
  fold_left (λ mode_values m, mode_values +:+ RouteMode_str m +:+ ";") modes acc
  = acc +:+ fold_right (λ m rest, RouteMode_str m +:+ ";" +:+ rest) "" modes.
Proof.
  revert acc. induction modes as [|m modes IH]; intros acc; simpl.
  - by rewrite append_empty_r.
  - by rewrite IH, !append_assoc.
Qed.

(** After the loop a non-empty sequence is joined, with one semicolon
    too many at the end. *)
Lemma terminated_is_joined (modes : list RouteMode) :
  modes ≠ [] →
  fold_right (λ m rest, RouteMode_str m +:+ ";" +:+ rest) "" modes
  = String.concat ";" (RouteMode_str <$> modes) +:+ ";".
Proof.
  induction modes as [|m modes IH]; [done | intros _].
  destruct modes as [|m' modes].
  - simpl. by rewrite append_empty_r.
  - change (RouteMode_str m +:+ ";" +:+
              fold_right (λ m rest, RouteMode_str m +:+ ";" +:+ rest) "" (m' :: modes)
            = (RouteMode_str m +:+ ";" +:+
                 String.concat ";" (RouteMode_str <$> m' :: modes)) +:+ ";").
    rewrite IH by done. by rewrite !append_assoc.
Qed.

Lemma prepare_mode_values_concat (modes : list RouteMode) :
  __prepare_mode_values modes = String.concat ";" (RouteMode_str <$> modes).
Proof.
  unfold __prepare_mode_values. rewrite fold_mode_values. simpl.
  destruct (decide (modes = [])) as [->|Hne]; [done |].
  rewrite terminated_is_joined by done. apply drop_last_snoc.
Qed.

Lemma concat_starts (sep s : string) (l : list string) :
  ∃ rest, String.concat sep (s :: l) = s +:+ rest.
Proof. destruct l; simpl; eauto. exists "". by rewrite append_empty_r. Qed.

Lemma concat_ends (sep : string) (l : list string) (s : string) :
  last l = Some s → ∃ front, String.concat sep l = front +:+ s.
Proof.
  induction l as [|x l IH]; [done |].
  destruct l as [|y l].
  - intros [= ->]. by exists "".
  - intros Hlast. destruct (IH Hlast) as [front Hfront].
    exists (x +:+ sep +:+ front).
    change (String.concat sep (x :: y :: l)) with (x +:+ sep +:+ String.concat sep (y :: l)).
    by rewrite Hfront, !append_assoc.
Qed.

Lemma concat_length (l : list string) :
  l ≠ [] →
  String.length (String.concat ";" l) = sum_list (String.length <$> l) + (length l - 1).
Proof.
  induction l as [|x l IH]; [done | intros _].
  destruct l as [|y l].
  - simpl. lia.
  - change (String.concat ";" (x :: y :: l)) with (x +:+ ";" +:+ String.concat ";" (y :: l)).
    rewrite !length_append, IH by done. simpl. lia.
Qed.

(** C4. For every non-empty sequence of route modes, the [mode]
    parameter that [__prepare_mode_values] produces is the string forms
    of the modes, in order, with one [;] between two neighbours: it
    begins with the string form of the first mode and ends with the
    string form of the last one, so no separator leads or trails, and
    its length is the lengths of the string forms plus one separator
    less than there are modes. *)
Theorem prepare_mode_values_joined (modes : list RouteMode) :
  modes ≠ [] →
  __prepare_mode_values modes = String.concat ";" (RouteMode_str <$> modes)
  ∧ (∀ m, head modes = Some m →
       ∃ rest, __prepare_mode_values modes = RouteMode_str m +:+ rest)
  ∧ (∀ m, last modes = Some m →
       ∃ front, __prepare_mode_values modes = front +:+ RouteMode_str m)
  ∧ String.length (__prepare_mode_values modes)
    = sum_list (String.length ∘ RouteMode_str <$> modes) + (length modes - 1).
Proof.
  intros Hne. rewrite prepare_mode_values_concat. split_and!.
  - done.
  - intros m Hm. destruct modes as [|m' modes]; [done |].
    injection Hm as ->. apply concat_starts.
  - intros m Hm. apply concat_ends. by rewrite fmap_last, Hm.
  - rewrite concat_length by (by destruct modes).
    by rewrite length_fmap, list_fmap_compose.
Qed.
End ModeValuesFacts.

(** The default modes of [CarRoute] are joined to [car;fastest]. *)
Lemma prepare_mode_values_joined_witness :
  [Fixture.Car; Fixture.Fastest] ≠ []
  ∧ __prepare_mode_values [Fixture.Car; Fixture.Fastest] = "car;fastest".
Proof.
  split; [done |].
  exact (proj1 (prepare_mode_values_joined [Fixture.Car; Fixture.Fastest]
                  ltac:(discriminate))).
Defined.

(** ** Dictionaries *)

Lemma filter_none {A} (P : A → Prop) `{!∀ x, Decision (P x)} (l : list A) :
  (∀ x, x ∈ l → ¬ P x) → filter P l = [].
Proof.
  induction l as [|x l IH]; intros Hnone; [done |].
  rewrite filter_cons_False by (apply Hnone; left).
  apply IH. intros y Hy. apply Hnone. by right.
Qed.

(** A dictionary has one item for a key it binds. *)
Lemma entries_lookup (d : gmap string pyval) (k : string) (v : pyval) :
  d !! k = Some v → entries k d = [(k, v)].
Proof.
  intros Hk. unfold entries.
  assert (Hperm : map_to_list d ≡ₚ (k, v) :: map_to_list (delete k d)).
  { rewrite <- (insert_delete_id d k v) at 1 by done.
    apply map_to_list_insert, lookup_delete_eq. }
  assert (Hrest : filter (λ kv : string * pyval, kv.1 = k) (map_to_list (delete k d)) = []).
  { apply filter_none. intros [k' v'] Hin Heq. simpl in Heq. subst k'.
    apply elem_of_map_to_list in Hin. by rewrite lookup_delete_eq in Hin. }
  apply Permutation_singleton_r.
  rewrite Hperm, filter_cons_True by done. by rewrite Hrest.
Qed.

Lemma no_space_append (s t : string) : no_space (s +:+ t) = no_space s && no_space t.
Proof.
  induction s as [|c s IH]; [done |].
  rewrite append_cons. simpl. by rewrite IH, andb_assoc.
Qed.

(** ** The client object *)

(** C10. For every client and every pair of credentials,
    [SetCredentials] stores the two credentials in the attributes
    [_app_id] and [_app_code] and leaves the other attributes, the base
    URL and the timeout, as they are. *)
Theorem SetCredentials_frame (self : RoutingApi) (app_id app_code : pyval) :
  _app_id (SetCredentials self app_id app_code) = app_id
  ∧ _app_code (SetCredentials self app_id app_code) = app_code
  ∧ _baseUrl (SetCredentials self app_id app_code) = _baseUrl self
  ∧ _timeout (SetCredentials self app_id app_code) = _timeout self.
Proof. by destruct self. Qed.

(** Storing the credentials a client was built with changes nothing. *)
Lemma init_SetCredentials (app_id app_code : pyval) (timeout : option pyval) :
  SetCredentials (__init__ (Some app_id) (Some app_code) timeout) app_id app_code
  = __init__ (Some app_id) (Some app_code) timeout.
Proof. reflexivity. Qed.

(** C9, as amended. A client built without a timeout has the timeout
    20; a client built with a timeout that is truthy stores that
    timeout; a timeout that is not truthy ([None], [0], [0.0],
    [False]) is replaced by 20. *)
Theorem init_timeout (app_id app_code : option pyval) :
  _timeout (__init__ app_id app_code None) = PyInt 20
  ∧ (∀ t, truthy t = true → _timeout (__init__ app_id app_code (Some t)) = t)
  ∧ (∀ t, truthy t = false → _timeout (__init__ app_id app_code (Some t)) = PyInt 20).
Proof.
  split_and!; [done | |]; intros t Ht; unfold __init__; simpl; by rewrite Ht.
Qed.

(** The timeout 5 is stored; the timeout 0.0 is replaced by 20. *)
Lemma init_timeout_witness :
  truthy (PyInt 5) = true ∧ truthy (PyFloat (S754_zero false)) = false
  ∧ _timeout (__init__ None None (Some (PyInt 5))) = PyInt 5
  ∧ _timeout (__init__ None None (Some (PyFloat (S754_zero false)))) = PyInt 20.
Proof.
  split_and!; [done | done | |].
  - exact (proj1 (proj2 (init_timeout None None)) (PyInt 5) eq_refl).
  - exact (proj2 (proj2 (init_timeout None None)) (PyFloat (S754_zero false)) eq_refl).
Defined.

(** C9, as stated, fails: the timeout 0 given at construction is not
    the timeout the client stores. *)
Lemma zero_timeout_replaced :
  _timeout (__init__ None None (Some (PyInt 0))) = PyInt 20
  ∧ _timeout (__init__ None None (Some (PyInt 0))) ≠ PyInt 0.
Proof. split; [reflexivity | discriminate]. Qed.

(** ** The assembled parameters *)

Section OperationsFacts.
Context {coord : Type} (format_coord : coord → string).
Context `{RouteModeEnum RouteMode}.

Lemma call_waypoint0 (self : RoutingApi) (c : route_call) :
  call_data format_coord self c !! "waypoint0"
  = Some (PyStr (lat_lon format_coord (call_waypoint_a c))).
Proof.
  unfold lat_lon. rewrite <- str_format_pair. by destruct c.
Qed.

Lemma call_waypoint1 (self : RoutingApi) (c : route_call) :
  call_data format_coord self c !! "waypoint1"
  = Some (PyStr (waypoint1_prefix c +:+ lat_lon format_coord (call_waypoint_b c))).
Proof.
  unfold lat_lon.
  destruct c; simpl waypoint1_prefix;
    rewrite ?append_empty_l, <- ?str_format_street_pair, <- ?str_format_pair; done.
Qed.

Lemma no_space_lat_lon (w : waypoint) :
  no_space (lat_lon format_coord w)
  = no_space (format_coord w.1) && no_space (format_coord w.2).
Proof. unfold lat_lon. by rewrite !no_space_append. Qed.

(** C1, as amended. For every route operation and all waypoints A and
    B, the assembled dictionary has exactly one item [waypoint0],
    whose value is the latitude of A, a comma and the longitude of A,
    and exactly one item [waypoint1], whose value is the latitude of
    B, a comma and the longitude of B, preceded by [street!!] in
    [LocationNearMotorway] and by nothing in the other five
    operations.  The formatting adds no white space: a value has white
    space only where a printed coordinate has. *)
Theorem waypoints_formatted (self : RoutingApi) (c : route_call) :
  entries "waypoint0" (call_data format_coord self c)
  = [("waypoint0", PyStr (lat_lon format_coord (call_waypoint_a c)))]
  ∧ entries "waypoint1" (call_data format_coord self c)
    = [("waypoint1", PyStr (waypoint1_prefix c +:+ lat_lon format_coord (call_waypoint_b c)))]
  ∧ no_space (lat_lon format_coord (call_waypoint_a c))
    = no_space (format_coord (call_waypoint_a c).1)
      && no_space (format_coord (call_waypoint_a c).2)
  ∧ no_space (waypoint1_prefix c +:+ lat_lon format_coord (call_waypoint_b c))
    = no_space (format_coord (call_waypoint_b c).1)
      && no_space (format_coord (call_waypoint_b c).2).
Proof.
  split_and!.
  - apply entries_lookup, call_waypoint0.
  - apply entries_lookup, call_waypoint1.
  - apply no_space_lat_lon.
  - rewrite no_space_append, no_space_lat_lon. by destruct c.
Qed.

(** C7. For every boolean [combine_change], the dictionary that
    [PublicTransport] assembles has exactly one item [combine_change];
    its value is the string [true] when the input is [True] and the
    string [false] when it is [False]: a string, never a boolean,
    and never the text [True] or [False]. *)
Theorem combine_change_literal (self : RoutingApi) (waypoint_a waypoint_b : waypoint)
    (b : bool) (modes : option (list RouteMode)) :
  let data := PublicTransport_data format_coord self waypoint_a waypoint_b (PyBool b) modes in
  data !! "combine_change" = Some (PyStr (if b then "true" else "false"))
  ∧ entries "combine_change" data
    = [("combine_change", PyStr (if b then "true" else "false"))]
  ∧ (∀ b', data !! "combine_change" ≠ Some (PyBool b'))
  ∧ data !! "combine_change" ≠ Some (PyStr "True")
  ∧ data !! "combine_change" ≠ Some (PyStr "False").
Proof.
  intros data.
  assert (Hlookup : data !! "combine_change" = Some (PyStr (if b then "true" else "false")))
    by reflexivity.
  split_and!; [done | by apply entries_lookup | | |]; rewrite Hlookup; by destruct b.
Qed.

Lemma call_app_id (self : RoutingApi) (c : route_call) :
  call_data format_coord self c !! "app_id" = Some (_app_id self).
Proof. by destruct c. Qed.

Lemma call_app_code (self : RoutingApi) (c : route_call) :
  call_data format_coord self c !! "app_code" = Some (_app_code self).
Proof. by destruct c. Qed.

Lemma call_mode (self : RoutingApi) (waypoint_a waypoint_b : waypoint)
    (modes : option (list RouteMode)) :
  CarRoute_data format_coord self waypoint_a waypoint_b modes !! "mode"
  = Some (PyStr (__prepare_mode_values (default [car; fastest] modes))).
Proof. reflexivity. Qed.
End OperationsFacts.

(** C1, as stated, fails: [LocationNearMotorway] does not format its
    second waypoint as latitude, comma, longitude. *)
Lemma location_near_motorway_waypoint1 :
  LocationNearMotorway_data Fixture.text Fixture.api Fixture.berlin_a Fixture.berlin_b None
    !! "waypoint1" = Some (PyStr "street!!52.4,13.5")
  ∧ LocationNearMotorway_data Fixture.text Fixture.api Fixture.berlin_a Fixture.berlin_b None
      !! "waypoint1" ≠ Some (PyStr (lat_lon Fixture.text Fixture.berlin_b)).
Proof. split; [reflexivity | discriminate]. Qed.

(** ** Dispatch *)

Section DispatchFacts.
Context {coord : Type} (format_coord : coord → string).
Context `{RouteModeEnum RouteMode}.
Context `{Collaborators RoutingResponse}.

(** Every route operation hands its dictionary to [__get], which finds
    the name of that operation in the calling frame. *)
Lemma perform_get (self : RoutingApi) (c : route_call) :
  perform format_coord self c
  = __get self (call_name c) (call_data format_coord self c).
Proof. by destruct c. Qed.

(** The reply decides the outcome: the dictionary only reaches the
    transport, inside the URL. *)
Lemma get_decoded (self : RoutingApi) (co_name content : string)
    (data jsonData : gmap string pyval) :
  requests_get (BuildUrl py_str (_baseUrl self) data) (_timeout self) = Some content →
  json_loads content = Some (PyDict jsonData) →
  __get self co_name data
  = if ne_None (default PyNone (jsonData !! "response"))
    then ReturnResponse (new_from_jsondict jsonData)
    else ReturnError
           (mkHEREError
              (default (PyStr ("Error occured on " +:+ co_name)) (jsonData !! "details"))).
Proof. intros Hget Hjson. unfold __get. by rewrite Hget, Hjson. Qed.

(** C2, as amended. Whenever the reply decodes to a JSON object whose
    top-level [response] field is present and not [null], [__get]
    returns the response model built from that object: it returns no
    error and raises nothing. *)
Theorem get_success (self : RoutingApi) (co_name content : string)
    (data jsonData : gmap string pyval) (v : pyval) :
  requests_get (BuildUrl py_str (_baseUrl self) data) (_timeout self) = Some content →
  json_loads content = Some (PyDict jsonData) →
  jsonData !! "response" = Some v →
  v ≠ PyNone →
  __get self co_name data = ReturnResponse (new_from_jsondict jsonData).
Proof.
  intros Hget Hjson Hv Hnone. rewrite (get_decoded _ _ _ _ _ Hget Hjson), Hv.
  by destruct v.
Qed.

(** C3, as amended. Whenever the reply decodes to a JSON object that
    has no top-level [response] field, [__get] returns a [HEREError];
    its message is the value of the [details] field when the object
    has one, and otherwise the text [Error occured on ] followed by
    the name of the calling method, which for every route operation
    is the name of that operation. *)
Theorem get_error (self : RoutingApi) (co_name content : string)
    (data jsonData : gmap string pyval) :
  requests_get (BuildUrl py_str (_baseUrl self) data) (_timeout self) = Some content →
  json_loads content = Some (PyDict jsonData) →
  jsonData !! "response" = None →
  (∃ e, __get self co_name data = ReturnError e
        ∧ (∀ details, jsonData !! "details" = Some details → message e = details)
        ∧ (jsonData !! "details" = None
           → message e = PyStr ("Error occured on " +:+ co_name)))
  ∧ (∀ c : route_call,
       data = call_data format_coord self c →
       ∃ e, perform format_coord self c = ReturnError e
            ∧ (∀ details, jsonData !! "details" = Some details → message e = details)
            ∧ (jsonData !! "details" = None
               → message e = PyStr ("Error occured on " +:+ call_name c))).
Proof.
  intros Hget Hjson Hresp.
  assert (Hany : ∀ name, ∃ e, __get self name data = ReturnError e
            ∧ (∀ details, jsonData !! "details" = Some details → message e = details)
            ∧ (jsonData !! "details" = None
               → message e = PyStr ("Error occured on " +:+ name))).
  { intros name. rewrite (get_decoded _ _ _ _ _ Hget Hjson), Hresp. simpl.
    eexists. split; [done |]. simpl. split.
    - by intros details ->.
    - by intros ->. }
  split; [apply Hany |].
  intros c ->. rewrite perform_get. apply Hany.
Qed.

(** C5, as amended. A call of [__get] has one outcome and never two.
    When the request completes and the body decodes to a JSON object,
    the call returns exactly one of a response model (the [response]
    field is present and not [null]) and a [HEREError] (otherwise).
    When the request fails, the body is not JSON or the document is
    not an object, an exception leaves the call and it returns
    neither. *)
Theorem get_one_outcome (self : RoutingApi) (co_name : string) (data : gmap string pyval) :
  let url := BuildUrl py_str (_baseUrl self) data in
  let o := __get self co_name data in
  ¬ (yields_response o ∧ yields_error o)
  ∧ (∀ content jsonData,
       requests_get url (_timeout self) = Some content →
       json_loads content = Some (PyDict jsonData) →
       (yields_response o ∧ ¬ yields_error o
        ∧ ne_None (default PyNone (jsonData !! "response")) = true)
       ∨ (yields_error o ∧ ¬ yields_response o
          ∧ ne_None (default PyNone (jsonData !! "response")) = false))
  ∧ (requests_get url (_timeout self) = None → o = Raise RequestException)
  ∧ (∀ content,
       requests_get url (_timeout self) = Some content →
       json_loads content = None → o = Raise ValueError)
  ∧ (∀ content doc,
       requests_get url (_timeout self) = Some content →
       json_loads content = Some doc →
       (∀ jsonData, doc ≠ PyDict jsonData) → o = Raise AttributeError).
Proof.
  intros url o. split_and!.
  - intros [[r Hr] [e He]]. congruence.
  - intros content jsonData Hget Hjson. subst o.
    rewrite (get_decoded _ _ _ _ _ Hget Hjson).
    destruct (ne_None _); [left | right]; (split_and!; [by eexists | | done]);
      intros [x Hx]; discriminate Hx.
  - intros Hget. subst o url. unfold __get. by rewrite Hget.
  - intros content Hget Hjson. subst o url. unfold __get. by rewrite Hget, Hjson.
  - intros content doc Hget Hjson Hdoc. subst o url. unfold __get. rewrite Hget, Hjson.
    destruct doc; try done. by destruct (Hdoc d).
Qed.
End DispatchFacts.

(** A stub reply with a success envelope comes back as the response
    model of that envelope. *)
Lemma get_success_witness :
  Fixture.success_doc !! "response" = Some (PyDict {[ "route" := PyList [] ]})
  ∧ @__get _ (Fixture.canned (PyDict Fixture.success_doc)) Fixture.api "CarRoute"
      (CarRoute_data Fixture.text Fixture.api Fixture.berlin_a Fixture.berlin_b None)
    = ReturnResponse Fixture.success_doc.
Proof.
  split; [reflexivity |].
  apply (@get_success _ (Fixture.canned (PyDict Fixture.success_doc)) Fixture.api
           "CarRoute" "canned" _ Fixture.success_doc (PyDict {[ "route" := PyList [] ]}));
    [reflexivity | reflexivity | reflexivity | discriminate].
Defined.

(** C2, as stated, fails: the document [{"response": null}] has a
    top-level [response] field, and [__get] returns a [HEREError]. *)
Lemma get_null_response_is_error :
  is_Some (Fixture.null_response_doc !! "response")
  ∧ @perform _ Fixture.text _ _ _ (Fixture.canned (PyDict Fixture.null_response_doc))
      Fixture.api (CallCarRoute Fixture.berlin_a Fixture.berlin_b None)
    = ReturnError (mkHEREError (PyStr "Error occured on CarRoute"))
  ∧ ¬ yields_response
        (@perform _ Fixture.text _ _ _ (Fixture.canned (PyDict Fixture.null_response_doc))
           Fixture.api (CallCarRoute Fixture.berlin_a Fixture.berlin_b None)).
Proof.
  split_and!; [by eexists | reflexivity | intros [r Hr]; discriminate Hr].
Qed.

(** A stub reply with an error envelope comes back as a [HEREError]
    with the [details] of that envelope. *)
Lemma get_error_witness :
  Fixture.error_doc !! "response" = None
  ∧ ∃ e, @__get _ (Fixture.canned (PyDict Fixture.error_doc)) Fixture.api "CarRoute"
           (CarRoute_data Fixture.text Fixture.api Fixture.berlin_a Fixture.berlin_b None)
         = ReturnError e
         ∧ message e = PyStr "Invalid credentials".
Proof.
  split; [reflexivity |].
  destruct (proj1 (@get_error _ Fixture.text _ _ _ (Fixture.canned (PyDict Fixture.error_doc))
                     Fixture.api "CarRoute" "canned"
                     (CarRoute_data Fixture.text Fixture.api Fixture.berlin_a
                        Fixture.berlin_b None)
                     Fixture.error_doc eq_refl eq_refl eq_refl))
    as (e & He & Hdetails & _).
  exists e. split; [exact He |]. apply Hdetails. reflexivity.
Defined.

(** C3, as stated, fails: the document [[]] decodes and has no
    top-level [response] field, and [__get] raises [AttributeError]
    instead of returning or raising a [HEREError]. *)
Lemma get_array_raises :
  @perform _ Fixture.text _ _ _ (Fixture.canned Fixture.array_doc)
    Fixture.api (CallCarRoute Fixture.berlin_a Fixture.berlin_b None)
  = Raise AttributeError
  ∧ ¬ yields_error
        (@perform _ Fixture.text _ _ _ (Fixture.canned Fixture.array_doc)
           Fixture.api (CallCarRoute Fixture.berlin_a Fixture.berlin_b None)).
Proof.
  split; [reflexivity | intros [e He]; discriminate He].
Qed.

(** A request that times out raises [RequestException]; a reply that
    is not JSON raises [ValueError]. *)
Lemma get_one_outcome_witness :
  @__get _ Fixture.offline Fixture.api "CarRoute"
    (CarRoute_data Fixture.text Fixture.api Fixture.berlin_a Fixture.berlin_b None)
  = Raise RequestException
  ∧ @__get _ Fixture.garbled Fixture.api "CarRoute"
      (CarRoute_data Fixture.text Fixture.api Fixture.berlin_a Fixture.berlin_b None)
    = Raise ValueError.
Proof.
  split.
  - exact (proj1 (proj2 (proj2 (@get_one_outcome _ Fixture.offline Fixture.api "CarRoute"
             (CarRoute_data Fixture.text Fixture.api Fixture.berlin_a Fixture.berlin_b None))))
             eq_refl).
  - exact (proj1 (proj2 (proj2 (proj2 (@get_one_outcome _ Fixture.garbled Fixture.api
             "CarRoute"
             (CarRoute_data Fixture.text Fixture.api Fixture.berlin_a Fixture.berlin_b None)))))
             "<html>" eq_refl eq_refl).
Defined.

(** C5, as stated, fails: when the request times out the call yields
    neither a response model nor an API error. *)
Lemma get_timeout_yields_neither :
  @perform _ Fixture.text _ _ _ Fixture.offline
    Fixture.api (CallCarRoute Fixture.berlin_a Fixture.berlin_b None)
  = Raise RequestException
  ∧ ¬ (yields_response
         (@perform _ Fixture.text _ _ _ Fixture.offline
            Fixture.api (CallCarRoute Fixture.berlin_a Fixture.berlin_b None))
       ∨ yields_error
           (@perform _ Fixture.text _ _ _ Fixture.offline
              Fixture.api (CallCarRoute Fixture.berlin_a Fixture.berlin_b None))).
Proof.
  split; [reflexivity | intros [[r Hr] | [e He]]; [discriminate Hr | discriminate He]].
Qed.

(** ** The built URL *)

Lemma concat_contains (sep s : string) (l : list string) :
  s ∈ l → substring_of s (String.concat sep l).
Proof.
  induction l as [|x l IH]; [by intros ?%elem_of_nil |].
  intros [Heq | Hin]%elem_of_cons.
  - subst x. destruct l as [|y l]; [apply substring_of_refl |].
    change (String.concat sep (s :: y :: l)) with (s +:+ sep +:+ String.concat sep (y :: l)).
    apply substring_of_app_l, substring_of_refl.
  - destruct l as [|y l]; [by apply elem_of_nil in Hin |].
    change (String.concat sep (x :: y :: l)) with (x +:+ sep +:+ String.concat sep (y :: l)).
    by apply substring_of_app_r, substring_of_app_r, IH.
Qed.

(** Every item of the dictionary is written into the URL. *)
Lemma BuildUrl_contains (text : pyval → string) (url k : string) (v : pyval)
    (extra_params : gmap string pyval) :
  extra_params !! k = Some v →
  substring_of (encode_parameter text (k, v)) (BuildUrl text url extra_params).
Proof.
  intros Hk. unfold BuildUrl.
  assert (Hin : (k, v) ∈ map_to_list extra_params) by by apply elem_of_map_to_list.
  destruct (map_to_list extra_params) as [|item items] eqn:Hitems;
    [by apply elem_of_nil in Hin |].
  apply substring_of_app_r, substring_of_app_r, concat_contains.
  by apply (list_elem_of_fmap_2 (encode_parameter text)) in Hin.
Qed.

(** The URL begins with the base URL. *)
Lemma BuildUrl_prefix (text : pyval → string) (url : string)
    (extra_params : gmap string pyval) :
  ∃ query, BuildUrl text url extra_params = url +:+ query.
Proof.
  unfold BuildUrl. destruct (map_to_list extra_params).
  - exists "". by rewrite append_empty_r.
  - eauto.
Qed.

Lemma prefix_append (s t : string) : String.prefix s (s +:+ t) = true.
Proof.
  induction s as [|c s IH]; [by destruct t |].
  rewrite append_cons. simpl. by destruct (ascii_dec c c).
Qed.

Lemma contains_substring (needle hay : string) :
  substring_of needle hay → contains needle hay = true.
Proof.
  assert (Hunfold : ∀ hay', contains needle hay'
            = String.prefix needle hay'
              || match hay' with
                 | EmptyString => false
                 | String _ rest => contains needle rest
                 end) by (by intros []).
  intros (before & after & ->). induction before as [|c before IH].
  - by rewrite append_empty_l, Hunfold, prefix_append.
  - rewrite append_cons, Hunfold, IH. apply orb_true_r.
Qed.

Section CredentialFacts.
Context {coord : Type} (format_coord : coord → string).
Context `{RouteModeEnum RouteMode}.
Context {RoutingResponse : Type}.

(** C6. For every route operation, every client and every input, the
    assembled dictionary has the items [app_id] and [app_code] with the
    credentials the client stores, also after [SetCredentials] has
    replaced them.  So, when the URL builder writes a string value as
    it is, the URL built for a client with the credentials [app_id]
    and [app_code] contains [app_id=app_id] and [app_code=app_code],
    and this is the URL the operation requests: the operation raises
    the transport failure exactly when the transport fails on that
    URL, and two transports that reply alike to every URL with both
    credentials bring the operation to the same outcome. *)
Theorem credentials_injected (world : Collaborators RoutingResponse)
    (self : RoutingApi) (c : route_call) :
  call_data format_coord self c !! "app_id" = Some (_app_id self)
  ∧ call_data format_coord self c !! "app_code" = Some (_app_code self)
  ∧ (∀ app_id app_code,
       call_data format_coord (SetCredentials self app_id app_code) c !! "app_id"
       = Some app_id
       ∧ call_data format_coord (SetCredentials self app_id app_code) c !! "app_code"
         = Some app_code)
  ∧ ((∀ s, @py_str _ world (PyStr s) = s) →
     _app_id self = PyStr "app_id" →
     _app_code self = PyStr "app_code" →
     substring_of "app_id=app_id" (@request_url _ format_coord _ _ _ world self c)
     ∧ substring_of "app_code=app_code" (@request_url _ format_coord _ _ _ world self c)
     ∧ (@requests_get _ world (@request_url _ format_coord _ _ _ world self c)
          (_timeout self) = None
        ↔ @perform _ format_coord _ _ _ world self c = Raise RequestException)
     ∧ (∀ other : Collaborators RoutingResponse,
          @py_str _ other = @py_str _ world →
          @json_loads _ other = @json_loads _ world →
          @new_from_jsondict _ other = @new_from_jsondict _ world →
          (∀ url,
             substring_of "app_id=app_id" url →
             substring_of "app_code=app_code" url →
             @requests_get _ other url (_timeout self)
             = @requests_get _ world url (_timeout self)) →
          @perform _ format_coord _ _ _ other self c
          = @perform _ format_coord _ _ _ world self c)).
Proof.
  split_and!.
  - apply call_app_id.
  - apply call_app_code.
  - intros app_id app_code. by rewrite call_app_id, call_app_code.
  - intros Hstr Hid Hcode.
    assert (Hhas_id : substring_of "app_id=app_id"
                        (@request_url _ format_coord _ _ _ world self c)).
    { unfold request_url.
      change "app_id=app_id"
        with (percent_encode "app_id" +:+ "=" +:+ percent_encode "app_id").
      rewrite <- (Hstr "app_id") at 2.
      apply (BuildUrl_contains (@py_str _ world) _ "app_id" (PyStr "app_id")).
      by rewrite call_app_id, Hid. }
    assert (Hhas_code : substring_of "app_code=app_code"
                          (@request_url _ format_coord _ _ _ world self c)).
    { unfold request_url.
      change "app_code=app_code"
        with (percent_encode "app_code" +:+ "=" +:+ percent_encode "app_code").
      rewrite <- (Hstr "app_code") at 2.
      apply (BuildUrl_contains (@py_str _ world) _ "app_code" (PyStr "app_code")).
      by rewrite call_app_code, Hcode. }
    split_and!; [done | done | |].
    + rewrite (@perform_get _ format_coord _ _ _ world). unfold request_url, __get.
      destruct (@requests_get _ world _ _) as [content|]; [| done].
      split; [done |].
      destruct (@json_loads _ world content) as [[| | | | | |jsonData]|]; try done.
      by destruct (ne_None _).
    + intros other Hpy Hjson Hnew Hagree.
      rewrite (@perform_get _ format_coord _ _ _ other),
        (@perform_get _ format_coord _ _ _ world).
      unfold request_url in Hhas_id, Hhas_code. unfold __get.
      rewrite Hpy, Hjson, Hnew. by rewrite (Hagree _ Hhas_id Hhas_code).
Qed.
End CredentialFacts.

Section UrlFacts.
Context {coord : Type} (format_coord : coord → string).
Context `{RouteModeEnum RouteMode}.
Context `{Collaborators RoutingResponse}.

(** C8. The driving route between the waypoints (52.5, 13.4) and
    (52.4, 13.5), with the default modes, on a client as [__init__]
    builds it: the assembled dictionary has [mode] [car;fastest],
    [departure] [now], [waypoint0] [52.5,13.4] and [waypoint1]
    [52.4,13.5]; the base URL of the client is the routing endpoint;
    and when the reply decodes to an object with a [response] field
    that is not [null], [CarRoute] returns the response model built
    from that object. *)
Theorem car_route_scenario (app_id app_code timeout : option pyval)
    (a_lat a_lon b_lat b_lon : coord) :
  format_coord a_lat = "52.5" → format_coord a_lon = "13.4" →
  format_coord b_lat = "52.4" → format_coord b_lon = "13.5" →
  RouteMode_str car = "car" → RouteMode_str fastest = "fastest" →
  let api := __init__ app_id app_code timeout in
  let data := CarRoute_data format_coord api (a_lat, a_lon) (b_lat, b_lon) None in
  data !! "mode" = Some (PyStr "car;fastest")
  ∧ data !! "departure" = Some (PyStr "now")
  ∧ data !! "waypoint0" = Some (PyStr "52.5,13.4")
  ∧ data !! "waypoint1" = Some (PyStr "52.4,13.5")
  ∧ _baseUrl api = "https://route.cit.api.here.com/routing/7.2/calculateroute.json"
  ∧ (∀ content jsonData v,
       requests_get (BuildUrl py_str (_baseUrl api) data) (_timeout api) = Some content →
       json_loads content = Some (PyDict jsonData) →
       jsonData !! "response" = Some v →
       v ≠ PyNone →
       CarRoute format_coord api (a_lat, a_lon) (b_lat, b_lon) None
       = ReturnResponse (new_from_jsondict jsonData)).
Proof.
  intros Ha1 Ha2 Hb1 Hb2 Hcar Hfastest api data. split_and!.
  - subst data. rewrite call_mode, prepare_mode_values_concat. simpl.
    by rewrite Hcar, Hfastest.
  - reflexivity.
  - subst data.
    rewrite (call_waypoint0 format_coord api (CallCarRoute (a_lat, a_lon) (b_lat, b_lon) None)).
    unfold lat_lon. simpl. by rewrite Ha1, Ha2.
  - subst data.
    rewrite (call_waypoint1 format_coord api (CallCarRoute (a_lat, a_lon) (b_lat, b_lon) None)).
    unfold lat_lon. simpl. by rewrite Hb1, Hb2.
  - reflexivity.
  - intros content jsonData v Hget Hjson Hv Hnone. unfold CarRoute.
    rewrite (get_decoded _ _ _ _ _ Hget Hjson), Hv. by destruct v.
Qed.
End UrlFacts.

(** The URL of a truck route requested by the client of the test
    suite has both credentials; a transport that times out and a
    transport that replies only to URLs without the application id
    bring the truck route to the same outcome. *)
Lemma credentials_injected_witness :
  (∀ s, Fixture.str_text (PyStr s) = s)
  ∧ substring_of "app_id=app_id"
      (@request_url _ Fixture.text _ _ _ Fixture.offline Fixture.api
         (CallTruckRoute Fixture.berlin_a Fixture.berlin_b None))
  ∧ substring_of "app_code=app_code"
      (@request_url _ Fixture.text _ _ _ Fixture.offline Fixture.api
         (CallTruckRoute Fixture.berlin_a Fixture.berlin_b None))
  ∧ @requests_get _ keyless_only (_baseUrl Fixture.api) (_timeout Fixture.api)
    = Some "canned"
  ∧ @perform _ Fixture.text _ _ _ keyless_only Fixture.api
      (CallTruckRoute Fixture.berlin_a Fixture.berlin_b None)
    = @perform _ Fixture.text _ _ _ Fixture.offline Fixture.api
        (CallTruckRoute Fixture.berlin_a Fixture.berlin_b None).
Proof.
  pose proof (proj2 (proj2 (proj2
                (@credentials_injected _ Fixture.text _ _ _ Fixture.offline Fixture.api
                   (CallTruckRoute Fixture.berlin_a Fixture.berlin_b None))))
                ltac:(reflexivity) eq_refl eq_refl)
    as (Hid & Hcode & _ & Hsame).
  split_and!; [reflexivity | exact Hid | exact Hcode | reflexivity |].
  apply (Hsame keyless_only); [reflexivity | reflexivity | reflexivity |].
  intros url Hurl _. simpl. by rewrite (contains_substring _ _ Hurl).
Defined.

(** The scenario with the coordinates given as text and a stub
    success reply. *)
Lemma car_route_scenario_witness :
  CarRoute_data Fixture.text Fixture.api Fixture.berlin_a Fixture.berlin_b None !! "mode"
  = Some (PyStr "car;fastest")
  ∧ @CarRoute _ Fixture.text _ _ _ (Fixture.canned (PyDict Fixture.success_doc))
      Fixture.api Fixture.berlin_a Fixture.berlin_b None
    = ReturnResponse Fixture.success_doc.
Proof.
  pose proof (@car_route_scenario _ Fixture.text _ _ _
                (Fixture.canned (PyDict Fixture.success_doc))
                (Some (PyStr "app_id")) (Some (PyStr "app_code")) None
                "52.5" "13.4" "52.4" "13.5"
                eq_refl eq_refl eq_refl eq_refl eq_refl eq_refl)
    as (Hmode & _ & _ & _ & _ & Hreply).
  split; [exact Hmode |].
  apply (Hreply "canned" Fixture.success_doc (PyDict {[ "route" := PyList [] ]}));
    [reflexivity | reflexivity | reflexivity | discriminate].
Defined.

(** * Further properties *)

(** ** The mode parameter, continued *)

Lemma concat_app (sep : string) (l1 l2 : list string) :
  l1 ≠ [] → l2 ≠ [] →
  String.concat sep (l1 ++ l2) = String.concat sep l1 +:+ sep +:+ String.concat sep l2.
Proof.
  intros Hl1 Hl2. induction l1 as [|x l1 IH]; [done |].
  destruct l1 as [|y l1].
  - destruct l2 as [|z l2]; done.
  - change (String.concat sep ((x :: y :: l1) ++ l2))
      with (x +:+ sep +:+ String.concat sep ((y :: l1) ++ l2)).
    change (String.concat sep (x :: y :: l1))
      with (x +:+ sep +:+ String.concat sep (y :: l1)).
    rewrite IH by done. by rewrite !append_assoc.
Qed.

Lemma split_on_no_sep (sep : ascii) (s : string) :
  has_char sep s = false → split_on sep s = [s].
Proof.
  induction s as [|c s IH]; [done |]. simpl.
  intros [Hc Hs]%orb_false_iff. by rewrite Hc, IH.
Qed.

Lemma split_on_piece (sep : ascii) (s t : string) :
  has_char sep s = false →
  split_on sep (s +:+ String sep t) = s :: split_on sep t.
Proof.
  induction s as [|c s IH].
  - intros _. rewrite append_empty_l. simpl. by rewrite Ascii.eqb_refl.
  - intros Hcs. rewrite append_cons. simpl in Hcs |- *.
    apply orb_false_iff in Hcs as [Hc Hs]. by rewrite Hc, IH.
Qed.

Lemma split_on_concat (sep : ascii) (l : list string) :
  l ≠ [] →
  Forall (λ s, has_char sep s = false) l →
  split_on sep (String.concat (String sep "") l) = l.
Proof.
  intros Hne Hall. induction Hall as [|x l Hx Hall IH]; [done |].
  destruct l as [|y l].
  - by apply split_on_no_sep.
  - change (String.concat (String sep "") (x :: y :: l))
      with (x +:+ String sep "" +:+ String.concat (String sep "") (y :: l)).
    change (String sep "" +:+ String.concat (String sep "") (y :: l))
      with (String sep (String.concat (String sep "") (y :: l))).
    rewrite split_on_piece by done. by rewrite IH.
Qed.

Section ModeValuesMore.
Context `{RouteModeEnum RouteMode}.

(** X1. [__prepare_mode_values] is built up from its parts: the empty
    sequence gives the empty string (the slice of an empty string
    raises nothing), one mode gives its string form alone, and two
    non-empty sequences one after the other give their two results
    with one [;] between them. *)
Theorem prepare_mode_values_app (modes1 modes2 : list RouteMode) :
  __prepare_mode_values (@nil RouteMode) = ""
  ∧ (∀ m, __prepare_mode_values [m] = RouteMode_str m)
  ∧ (modes1 ≠ [] → modes2 ≠ [] →
     __prepare_mode_values (modes1 ++ modes2)
     = __prepare_mode_values modes1 +:+ ";" +:+ __prepare_mode_values modes2).
Proof.
  split_and!.
  - reflexivity.
  - intros m. by rewrite prepare_mode_values_concat.
  - intros Hne1 Hne2. rewrite !prepare_mode_values_concat, fmap_app.
    apply concat_app; by destruct modes1, modes2.
Qed.

(** X2. The mode parameter can be read back: when no string form of a
    mode contains [;], splitting the result of [__prepare_mode_values]
    at [;] gives the string forms of the modes, in order.  For the
    empty sequence the split gives one empty piece, not none. *)
Theorem prepare_mode_values_split (modes : list RouteMode) :
  modes ≠ [] →
  (∀ m, m ∈ modes → has_char ";" (RouteMode_str m) = false) →
  split_on ";" (__prepare_mode_values modes) = RouteMode_str <$> modes.
Proof.
  intros Hne Hall. rewrite prepare_mode_values_concat.
  apply split_on_concat; [by destruct modes |].
  apply Forall_fmap, Forall_forall. intros m Hm. by apply Hall.
Qed.
End ModeValuesMore.

(** The two default modes of [CarRoute], appended and read back. *)
Lemma prepare_mode_values_app_witness :
  __prepare_mode_values ([Fixture.Car] ++ [Fixture.Fastest]) = "car" +:+ ";" +:+ "fastest".
Proof.
  exact (proj2 (proj2 (prepare_mode_values_app [Fixture.Car] [Fixture.Fastest]))
           ltac:(discriminate) ltac:(discriminate)).
Defined.

Lemma prepare_mode_values_split_witness :
  split_on ";" (__prepare_mode_values [Fixture.Truck; Fixture.Fastest])
  = ["truck"; "fastest"].
Proof.
  change ["truck"; "fastest"] with (RouteMode_str <$> [Fixture.Truck; Fixture.Fastest]).
  apply (prepare_mode_values_split [Fixture.Truck; Fixture.Fastest]).
  - discriminate.
  - intros m Hm. by destruct m.
Defined.

(** ** The assembled parameters, continued *)

(** Two texts with a comma after a comma-free front are equal only
    when their fronts and their rests are. *)
Lemma comma_split_inj (s1 s2 t1 t2 : string) :
  has_char "," s1 = false → has_char "," s2 = false →
  s1 +:+ "," +:+ t1 = s2 +:+ "," +:+ t2 → s1 = s2 ∧ t1 = t2.
Proof.
  revert s2. induction s1 as [|c1 s1 IH]; intros [|c2 s2] H1 H2 Heq.
  - rewrite !append_empty_l in Heq. by injection Heq.
  - rewrite append_empty_l, append_cons in Heq. injection Heq as <- _.
    simpl in H2. discriminate H2.
  - rewrite append_empty_l, append_cons in Heq. injection Heq as -> _.
    simpl in H1. discriminate H1.
  - rewrite !append_cons in Heq. injection Heq as -> Heq.
    simpl in H1, H2.
    apply orb_false_iff in H1 as [_ H1]. apply orb_false_iff in H2 as [_ H2].
    destruct (IH s2 H1 H2 Heq) as [-> ->]. done.
Qed.

Section OperationsMore.
Context {coord : Type} (format_coord : coord → string).
Context `{RouteModeEnum RouteMode}.

(** X3. The keys of the dictionary that a route operation assembles
    are [waypoint0], [waypoint1], [mode], [app_id] and [app_code], and
    besides them only [departure] in [CarRoute], [waypoint2] in
    [IntermediateRoute] and [combine_change] in [PublicTransport];
    whatever the arguments are, no operation writes another key. *)
Theorem call_data_keys (self : RoutingApi) (c : route_call) :
  dom (call_data format_coord self c) = common_keys ∪ extra_keys c.
Proof.
  destruct c; unfold call_data, CarRoute_data, PedastrianRoute_data, IntermediateRoute_data,
    PublicTransport_data, LocationNearMotorway_data, TruckRoute_data, dict_display,
    common_keys, extra_keys; simpl;
    rewrite !dom_insert_L, dom_empty_L; set_solver.
Qed.

(** X4. [CarRoute] asks for a departure now, whatever its arguments
    are, and no other operation sends a departure. *)
Theorem departure_only_car_route (self : RoutingApi) (c : route_call) :
  call_data format_coord self c !! "departure"
  = match c with
    | CallCarRoute _ _ _ => Some (PyStr "now")
    | _ => None
    end.
Proof. by destruct c. Qed.

(** X5. [IntermediateRoute] writes its three waypoints under three
    keys: besides [waypoint0] and [waypoint1] the dictionary has
    exactly one item [waypoint2], the latitude of the third waypoint,
    a comma and its longitude.  Apart from that item it is the
    dictionary that [CarRoute] assembles for the first two waypoints
    and the same modes, without the departure. *)
Theorem intermediate_route_waypoint2 (self : RoutingApi)
    (waypoint_a waypoint_b waypoint_c : waypoint) (modes : option (list RouteMode)) :
  let data :=
    IntermediateRoute_data format_coord self waypoint_a waypoint_b waypoint_c modes in
  entries "waypoint2" data = [("waypoint2", PyStr (lat_lon format_coord waypoint_c))]
  ∧ data !! "waypoint0" = Some (PyStr (lat_lon format_coord waypoint_a))
  ∧ data !! "waypoint1" = Some (PyStr (lat_lon format_coord waypoint_b))
  ∧ delete "waypoint2" data
    = delete "departure" (CarRoute_data format_coord self waypoint_a waypoint_b modes).
Proof.
  intros data. split_and!.
  - apply entries_lookup. unfold lat_lon. by rewrite <- str_format_pair.
  - unfold lat_lon. by rewrite <- str_format_pair.
  - unfold lat_lon. by rewrite <- str_format_pair.
  - apply map_eq. intros k. subst data.
    unfold IntermediateRoute_data, CarRoute_data, dict_display. simpl.
    destruct (decide (k = "waypoint2")) as [-> | Hk2]; [done |].
    destruct (decide (k = "departure")) as [-> | Hkd]; [done |].
    rewrite !lookup_delete_ne by done.
    rewrite (lookup_insert_ne _ "departure") by done.
    rewrite !lookup_insert. repeat case_decide; congruence.
Qed.

(** X6. In every route operation the [mode] item is the string forms
    of the given modes joined by [;]; when the caller gives no modes,
    those of the operation's own default: car and fastest for
    [CarRoute], [IntermediateRoute] and [LocationNearMotorway],
    pedestrian and fastest for [PedastrianRoute], public transport and
    fastest for [PublicTransport], truck and fastest for
    [TruckRoute].  Given modes replace the default as a whole. *)
Theorem call_mode_joined (self : RoutingApi) (c : route_call) :
  call_data format_coord self c !! "mode"
  = Some (PyStr (String.concat ";"
                   (RouteMode_str <$> default (default_modes c) (call_modes c)))).
Proof.
  rewrite <- prepare_mode_values_concat. by destruct c.
Qed.

(** X7. [PublicTransport] compares [combine_change] with [True]: the
    item is the string [true] for [True] and for the numbers equal to
    it, 1 and 1.0, and the string [false] for everything else, also
    for values that are truthy: any other integer, any string (the
    string [true] too), [None], lists and dictionaries. *)
Theorem combine_change_compared (self : RoutingApi) (waypoint_a waypoint_b : waypoint)
    (modes : option (list RouteMode)) :
  let value v :=
    PublicTransport_data format_coord self waypoint_a waypoint_b v modes
      !! "combine_change" in
  (∀ v, value v = Some (PyStr "true") ∨ value v = Some (PyStr "false"))
  ∧ value (PyInt 1) = Some (PyStr "true")
  ∧ value (PyFloat float_one) = Some (PyStr "true")
  ∧ (∀ n, n ≠ 1%Z → value (PyInt n) = Some (PyStr "false"))
  ∧ (∀ s, value (PyStr s) = Some (PyStr "false"))
  ∧ value PyNone = Some (PyStr "false")
  ∧ (∀ xs, value (PyList xs) = Some (PyStr "false"))
  ∧ (∀ d, value (PyDict d) = Some (PyStr "false")).
Proof.
  intros value.
  assert (Hvalue : ∀ v, value v = Some (PyStr (if eq_True v then "true" else "false")))
    by reflexivity.
  split_and!; try done.
  - intros v. rewrite Hvalue. destruct (eq_True v); auto.
  - intros n Hn. rewrite Hvalue. simpl. by destruct (Z.eqb_spec n 1).
Qed.

(** X8. The assembled dictionary takes nothing from the client but
    the two credentials: two clients with the same credentials, with
    whatever base URLs and timeouts, assemble the same dictionary for
    the same call. *)
Theorem call_data_credentials_only (self1 self2 : RoutingApi) (c : route_call) :
  _app_id self1 = _app_id self2 →
  _app_code self1 = _app_code self2 →
  call_data format_coord self1 c = call_data format_coord self2 c.
Proof.
  intros Hid Hcode.
  destruct c; unfold call_data, CarRoute_data, PedastrianRoute_data, IntermediateRoute_data,
    PublicTransport_data, LocationNearMotorway_data, TruckRoute_data;
    by rewrite Hid, Hcode.
Qed.

(** X9. The waypoints can be read back from the assembled
    dictionary: when two calls, of whatever operations and clients,
    assemble the same [waypoint0] item and the printed latitudes of
    their first waypoints contain no comma, the first waypoints have
    the same printed latitude and the same printed longitude; the same
    holds for [waypoint1] and the second waypoints, when both calls
    are [LocationNearMotorway] or neither is. *)
Theorem waypoint_text_inj (self1 self2 : RoutingApi) (c1 c2 : route_call) :
  (has_char "," (format_coord (call_waypoint_a c1).1) = false →
   has_char "," (format_coord (call_waypoint_a c2).1) = false →
   call_data format_coord self1 c1 !! "waypoint0"
   = call_data format_coord self2 c2 !! "waypoint0" →
   format_coord (call_waypoint_a c1).1 = format_coord (call_waypoint_a c2).1
   ∧ format_coord (call_waypoint_a c1).2 = format_coord (call_waypoint_a c2).2)
  ∧ (waypoint1_prefix c1 = waypoint1_prefix c2 →
     has_char "," (format_coord (call_waypoint_b c1).1) = false →
     has_char "," (format_coord (call_waypoint_b c2).1) = false →
     call_data format_coord self1 c1 !! "waypoint1"
     = call_data format_coord self2 c2 !! "waypoint1" →
     format_coord (call_waypoint_b c1).1 = format_coord (call_waypoint_b c2).1
     ∧ format_coord (call_waypoint_b c1).2 = format_coord (call_waypoint_b c2).2).
Proof.
  split.
  - intros H1 H2. rewrite !call_waypoint0. intros [= Heq].
    by apply comma_split_inj.
  - intros Hprefix H1 H2. rewrite !call_waypoint1, Hprefix. intros [= Heq].
    apply (inj (String.append _)) in Heq. by apply comma_split_inj.
Qed.
End OperationsMore.

(** The integer 2 is truthy and is written as [false]. *)
Lemma combine_change_compared_witness :
  truthy (PyInt 2) = true
  ∧ PublicTransport_data Fixture.text Fixture.api Fixture.berlin_a Fixture.berlin_b
      (PyInt 2) None !! "combine_change" = Some (PyStr "false").
Proof.
  split; [reflexivity |].
  apply (proj1 (proj2 (proj2 (proj2
           (combine_change_compared Fixture.text Fixture.api Fixture.berlin_a
              Fixture.berlin_b None)))) 2%Z).
  discriminate.
Defined.

(** The client of the test suite and a client with another timeout and
    the same credentials. *)
Lemma call_data_credentials_only_witness :
  call_data Fixture.text Fixture.api
    (CallTruckRoute Fixture.berlin_a Fixture.berlin_b None)
  = call_data Fixture.text
      (__init__ (Some (PyStr "app_id")) (Some (PyStr "app_code")) (Some (PyInt 3)))
      (CallTruckRoute Fixture.berlin_a Fixture.berlin_b None).
Proof.
  apply (call_data_credentials_only Fixture.text Fixture.api
           (__init__ (Some (PyStr "app_id")) (Some (PyStr "app_code")) (Some (PyInt 3))));
    reflexivity.
Defined.

(** A driving route of the client of the test suite and a truck route
    of a client without credentials, from the same first waypoint. *)
Lemma waypoint_text_inj_witness :
  Fixture.text (Fixture.berlin_a).1 = "52.5" ∧ Fixture.text (Fixture.berlin_a).2 = "13.4".
Proof.
  apply (proj1 (waypoint_text_inj Fixture.text Fixture.api (__init__ None None None)
                  (CallCarRoute Fixture.berlin_a Fixture.berlin_b None)
                  (CallTruckRoute ("52.5", "13.4") Fixture.berlin_a (Some [Fixture.Truck]))));
    reflexivity.
Defined.

(** ** The client object, continued *)

(** X10. Whatever the arguments of [__init__] are, the client it
    builds has a truthy timeout (never [None], zero or empty), the
    routing endpoint as its base URL, and as credentials the given
    ones, [None] for a credential that is not given; giving [None] as
    timeout is the same as giving no timeout. *)
Theorem init_invariant (app_id app_code timeout : option pyval) :
  truthy (_timeout (__init__ app_id app_code timeout)) = true
  ∧ (_timeout (__init__ app_id app_code timeout) = PyInt 20
     ∨ Some (_timeout (__init__ app_id app_code timeout)) = timeout)
  ∧ _baseUrl (__init__ app_id app_code timeout)
    = "https://route.cit.api.here.com/routing/7.2/calculateroute.json"
  ∧ _app_id (__init__ app_id app_code timeout) = default PyNone app_id
  ∧ _app_code (__init__ app_id app_code timeout) = default PyNone app_code
  ∧ __init__ app_id app_code (Some PyNone) = __init__ app_id app_code None.
Proof.
  split_and!; try done.
  - destruct timeout as [t|]; [| done]. unfold __init__. simpl.
    by destruct (truthy t) eqn:Ht.
  - destruct timeout as [t|]; [| by left]. unfold __init__. simpl.
    destruct (truthy t); [by right | by left].
Qed.

(** X11. Credentials are replaced, not merged: after two calls of
    [SetCredentials] the client is as after the second one alone;
    storing the credentials a client already has changes nothing; and
    a client built by [__init__] whose credentials are then replaced
    is the client that [__init__] builds with the new credentials and
    the same timeout. *)
Theorem SetCredentials_last_wins (self : RoutingApi) (id1 code1 id2 code2 : pyval)
    (app_id app_code timeout : option pyval) :
  SetCredentials (SetCredentials self id1 code1) id2 code2 = SetCredentials self id2 code2
  ∧ SetCredentials self (_app_id self) (_app_code self) = self
  ∧ SetCredentials (__init__ app_id app_code timeout) id2 code2
    = __init__ (Some id2) (Some code2) timeout.
Proof. by destruct self. Qed.

(** ** Dispatch, continued *)

Section DispatchMore.
Context `{Collaborators RoutingResponse}.

(** X12. A [response] field that is [null] counts as no response:
    whenever the reply decodes to a JSON object whose [response] is
    [null], [__get] returns a [HEREError], with the [details] of the
    object as message when it has them and the text naming the calling
    method otherwise, and builds no response model. *)
Theorem get_null_response (self : RoutingApi) (co_name content : string)
    (data jsonData : gmap string pyval) :
  requests_get (BuildUrl py_str (_baseUrl self) data) (_timeout self) = Some content →
  json_loads content = Some (PyDict jsonData) →
  jsonData !! "response" = Some PyNone →
  __get self co_name data
  = ReturnError
      (mkHEREError
         (match jsonData !! "details" with
          | Some details => details
          | None => PyStr ("Error occured on " +:+ co_name)
          end))
  ∧ ¬ yields_response (__get self co_name data).
Proof.
  intros Hget Hjson Hresp.
  rewrite (get_decoded _ _ _ _ _ Hget Hjson), Hresp. simpl. split.
  - by destruct (jsonData !! "details").
  - intros [r Hr]. discriminate Hr.
Qed.

(** X13. The name of the calling method reaches the outcome only
    through the fallback message: when every object the transport can
    reply with has a non-null [response] or has [details], [__get]
    comes to the same outcome under any two method names. *)
Theorem get_name_irrelevant (self : RoutingApi) (name1 name2 : string)
    (data : gmap string pyval) :
  (∀ content jsonData,
     requests_get (BuildUrl py_str (_baseUrl self) data) (_timeout self) = Some content →
     json_loads content = Some (PyDict jsonData) →
     ne_None (default PyNone (jsonData !! "response")) = true
     ∨ is_Some (jsonData !! "details")) →
  __get self name1 data = __get self name2 data.
Proof.
  intros Hreply. unfold __get.
  destruct (requests_get _ _) as [content|] eqn:Hget; [| done].
  destruct (json_loads content) as [[| | | | | |jsonData]|] eqn:Hjson; try done.
  destruct (Hreply content jsonData eq_refl Hjson) as [-> | [details ->]]; [done |].
  by destruct (ne_None _).
Qed.
End DispatchMore.

(** A stub reply whose [response] is [null]. *)
Lemma get_null_response_witness :
  @__get _ (Fixture.canned (PyDict Fixture.null_response_doc)) Fixture.api "TruckRoute"
    (TruckRoute_data Fixture.text Fixture.api Fixture.berlin_a Fixture.berlin_b None)
  = ReturnError (mkHEREError (PyStr "Error occured on TruckRoute")).
Proof.
  exact (proj1 (@get_null_response _ (Fixture.canned (PyDict Fixture.null_response_doc))
                  Fixture.api "TruckRoute" "canned"
                  (TruckRoute_data Fixture.text Fixture.api Fixture.berlin_a
                     Fixture.berlin_b None)
                  Fixture.null_response_doc eq_refl eq_refl eq_refl)).
Defined.

(** A stub reply with [details]: the same error under two names. *)
Lemma get_name_irrelevant_witness :
  @__get _ (Fixture.canned (PyDict Fixture.error_doc)) Fixture.api "CarRoute"
    (CarRoute_data Fixture.text Fixture.api Fixture.berlin_a Fixture.berlin_b None)
  = @__get _ (Fixture.canned (PyDict Fixture.error_doc)) Fixture.api "TruckRoute"
      (CarRoute_data Fixture.text Fixture.api Fixture.berlin_a Fixture.berlin_b None).
Proof.
  apply (@get_name_irrelevant _ (Fixture.canned (PyDict Fixture.error_doc))).
  intros content jsonData _ Hjson. right.
  injection Hjson as <-. by eexists.
Defined.
